(** * Credit Risk Segmentation Dashboard: prediction client and result renderer

    A shallow embedding of [dashboard_app.py]: the values that
    [response.json()] can produce, the widgets of the input form, the
    payload built by the predict button, [get_prediction] with its three
    [except] paths, and the block that renders the result card. *)

From Stdlib Require Import ZArith String Ascii List Bool Lia.
From Stdlib Require Import DecimalString.
From Stdlib Require Import Floats.SpecFloat.
From stdpp Require Import base gmap strings list fin_maps.

Local Open Scope Z_scope.

(** ** Python values *)

Module Py.

(** What [json.loads] hands back: [None], [bool], [int], [float], [str],
    [list] and [dict] with string keys.  An [int] is unbounded; a [float]
    is an IEEE-754 datum. *)
#[warnings="-register-all"]
Inductive obj : Type :=
  | PNone
  | PBool (b : bool)
  | PInt (n : Z)
  | PFloat (f : spec_float)
  | PStr (s : string)
  | PList (l : list obj)
  | PDict (d : gmap string obj).

(** [bool(v)]: the test performed by [if v:]. *)
Definition truthy (v : obj) : bool :=
  match v with
  | PNone => false
  | PBool b => b
  | PInt n => negb (Z.eqb n 0)
  | PFloat (S754_zero _) => false
  | PFloat _ => true
  | PStr s => negb (String.eqb s "")
  | PList l => match l with [] => false | _ => true end
  | PDict d => negb (Nat.eqb (size d) 0)
  end.

(** [float == int] compares the two numbers exactly: a finite float is
    [±m·2^e]. *)
Definition float_eq_int (f : spec_float) (k : Z) : bool :=
  match f with
  | S754_zero _ => Z.eqb k 0
  | S754_finite s m e =>
      let v := if s then Z.neg m else Z.pos m in
      if Z.leb 0 e then Z.eqb (v * 2 ^ e) k else Z.eqb v (k * 2 ^ (- e))
  | S754_infinity _ | S754_nan => false
  end.

(** [v == k] for an [int] literal [k].  [bool] is a subclass of [int]
    ([True == 1]); a string, [None], a list or a dict is never equal to
    an [int]. *)
Definition eq_int (v : obj) (k : Z) : bool :=
  match v with
  | PInt n => Z.eqb n k
  | PBool b => Z.eqb (if b then 1 else 0) k
  | PFloat f => float_eq_int f k
  | PNone | PStr _ | PList _ | PDict _ => false
  end.

(** [type(v).__name__], as it appears in an [AttributeError]. *)
Definition type_name (v : obj) : string :=
  match v with
  | PNone => "NoneType"
  | PBool _ => "bool"
  | PInt _ => "int"
  | PFloat _ => "float"
  | PStr _ => "str"
  | PList _ => "list"
  | PDict _ => "dict"
  end.

(** [str(n)] for an [int]. *)
Definition str_int (n : Z) : string := NilZero.string_of_int (Z.to_int n).

(** [sub in s] on strings. *)
Fixpoint contains (sub s : string) : bool :=
  String.prefix sub s ||
  match s with
  | EmptyString => false
  | String _ s' => contains sub s'
  end.

(** [str(v)], what an f-string puts in place of [{v}].  The text of a
    float, a list or a dict is produced by the interpreter's [repr]; it
    is the parameter [repr] here. *)
Definition str (repr : obj → string) (v : obj) : string :=
  match v with
  | PStr s => s
  | PInt n => str_int n
  | PBool true => "True"
  | PBool false => "False"
  | PNone => "None"
  | PFloat _ | PList _ | PDict _ => repr v
  end.

(** Exceptions.  Every class below derives from [Exception];
    [ConnectionError] stands for [requests.exceptions.ConnectionError]
    and its subclasses, [JSONDecodeError] for the error of
    [response.json()] on a body that is not JSON. *)
Inductive exn_class : Type :=
  | ConnectionError
  | JSONDecodeError
  | AttributeError
  | OtherException (name : string).

(** An exception instance: its class and [str(e)]. *)
Record exn : Type := Exn { exn_class_of : exn_class; exn_str : string }.

Definition is_ConnectionError (e : exn) : bool :=
  match exn_class_of e with ConnectionError => true | _ => false end.

Definition is_Exception (e : exn) : bool := true.

End Py.

(** ** Streamlit output *)

Module St.

(** One element written to the page, in the order the script writes it. *)
Inductive element : Type :=
  | error (body : string)
  | warning (body : string)
  | success (body : string)
  | markdown (body : string) (unsafe_allow_html : bool)
  | spinner (text : string).

Definition is_error (el : element) : bool :=
  match el with error _ => true | _ => false end.

Definition is_markdown (el : element) : bool :=
  match el with markdown _ _ => true | _ => false end.

End St.

(** ** The outside world: the network and the page *)

(** [requests.post(url, json=data)]. *)
Record request : Type := Request { url : string; json : Py.obj }.

(** A response: its status code and what [response.json()] does with
    its body, either the parsed value or the message of the decode
    error. *)
Record response : Type :=
  Response { status_code : Z; body_json : string + Py.obj }.

(** The call either comes back with a response or raises. *)
Inductive post_outcome : Type :=
  | Responded (r : response)
  | Failed (e : Py.exn).

(** The remote service and the transport are not part of the program:
    the answer to the [n]-th request sent by this process is given by a
    function of [n] and of the request. *)
Definition network : Type := nat → request → post_outcome.

(** The state threaded through the script: the requests sent so far and
    the elements written to the page so far. *)
Record world : Type := World { sent : list request; page : list St.element }.

Definition send (rq : request) (w : world) : world :=
  {| sent := sent w ++ [rq]; page := page w |}.

Definition write (el : St.element) (w : world) : world :=
  {| sent := sent w; page := page w ++ [el] |}.

(** ** Computations that return or raise *)

Inductive outcome (A : Type) : Type :=
  | Returned (a : A)
  | Raised (e : Py.exn).
Arguments Returned {A} a.
Arguments Raised {A} e.

Definition M (A : Type) : Type := world → outcome A * world.

Definition ret {A} (a : A) : M A := λ w, (Returned a, w).

Definition raise {A} (e : Py.exn) : M A := λ w, (Raised e, w).

Definition bind {A B} (c : M A) (k : A → M B) : M B :=
  λ w, match c w with
       | (Returned a, w') => k a w'
       | (Raised e, w') => (Raised e, w')
       end.

(** [let* x := c in k] runs [c], and [k] with its result unless [c]
    raised; [c >> k] runs [c] for its effect. *)
Notation "'let*' x ':=' c 'in' k" := (bind c (λ x, k))
  (at level 10, x binder, c at level 100, k at level 200).
Notation "c >> k" := (bind c (λ _, k))
  (at level 100, k at level 200, right associativity).

(** [except cls as e: suite]. *)
Record except_clause (A : Type) : Type :=
  Except { catches : Py.exn → bool; suite : Py.exn → M A }.
Arguments Except {A} catches suite.
Arguments catches {A} _ _.
Arguments suite {A} _ _.

(** The first clause whose class matches handles the exception; with no
    matching clause it propagates. *)
Fixpoint dispatch {A} (clauses : list (except_clause A)) (e : Py.exn) : M A :=
  match clauses with
  | [] => raise e
  | c :: rest => if catches c e then suite c e else dispatch rest e
  end.

(** [try: body except ...]. *)
Definition try_except {A} (body : M A) (clauses : list (except_clause A)) : M A :=
  λ w, match body w with
       | (Returned a, w') => (Returned a, w')
       | (Raised e, w') => dispatch clauses e w'
       end.

(** ** Library calls used by the script *)

Definition st_error (body : string) : M unit :=
  λ w, (Returned tt, write (St.error body) w).

Definition st_warning (body : string) : M unit :=
  λ w, (Returned tt, write (St.warning body) w).

Definition st_success (body : string) : M unit :=
  λ w, (Returned tt, write (St.success body) w).

Definition st_markdown (body : string) (unsafe_allow_html : bool) : M unit :=
  λ w, (Returned tt, write (St.markdown body unsafe_allow_html) w).

(** [with st.spinner(text): block]. *)
Definition st_spinner {A} (text : string) (block : M A) : M A :=
  λ w, block (write (St.spinner text) w).

(** [requests.post(url, json=data)]: the request goes out, and the
    network decides what comes back. *)
Definition requests_post (net : network) (u : string) (data : Py.obj) : M response :=
  λ w, let rq := {| url := u; json := data |} in
       match net (length (sent w)) rq with
       | Responded r => (Returned r, send rq w)
       | Failed e => (Raised e, send rq w)
       end.

(** [response.json()]. *)
Definition response_json (r : response) : M Py.obj :=
  match body_json r with
  | inr v => ret v
  | inl msg => raise (Py.Exn Py.JSONDecodeError msg)
  end.

(** [v.get(key, default)]: a dict method; any other value has no
    attribute [get]. *)
Definition py_get (v : Py.obj) (key : string) (dflt : Py.obj) : M Py.obj :=
  match v with
  | Py.PDict d => ret (default dflt (d !! key))
  | _ => raise (Py.Exn Py.AttributeError
                  ("'" +:+ Py.type_name v +:+ "' object has no attribute 'get'"))
  end.

(** ** 1. Configuration *)

Definition API_URL : string := "http://127.0.0.1:8000/predict_segment/".

(** A dict literal keeps the order in which its items are written. *)
Definition JOB_OPTIONS : list (Z * string) :=
  [ (0, "Unskilled-Non-Resident"); (1, "Unskilled-Resident");
    (2, "Skilled"); (3, "Highly Skilled") ].

(** ** 2. Core prediction logic *)

Section Client.

Variable repr : Py.obj → string.
Variable net : network.

(** The suite under [try:]. *)
Definition get_prediction_try (data : Py.obj) : M Py.obj :=
  let* response := requests_post net API_URL data in
  if Z.eqb (status_code response) 200 then
    response_json response
  else
    let* parsed := response_json response in
    let* error_detail := py_get parsed "detail" (Py.PStr "Unknown API Error") in
    st_error ("API Error (" +:+ Py.str_int (status_code response) +:+ "): "
              +:+ Py.str repr error_detail) >>
    st_warning "Ensure your Project 2 FastAPI server is running in a separate terminal." >>
    ret Py.PNone.

Definition get_prediction (data : Py.obj) : M Py.obj :=
  try_except (get_prediction_try data)
    [ Except Py.is_ConnectionError (λ _,
        st_error "Connection Error: Could not connect to the Prediction API." >>
        st_warning ("Please ensure your Project 2 FastAPI server is running at "
                    +:+ API_URL +:+ ".") >>
        ret Py.PNone);
      Except Py.is_Exception (λ e,
        st_error ("An unexpected error occurred: " +:+ Py.exn_str e) >>
        ret Py.PNone) ].

End Client.

(** ** 3. Input form *)

(** [st.number_input(label, min_value=, max_value=, value=)] with [int]
    arguments: the widget holds an [int]. *)
Record number_input : Type :=
  NumberInput { ni_label : string; min_value : Z; max_value : option Z; value : Z }.

(** The values the widget lets the user commit. *)
Definition accepts (w : number_input) (v : Z) : bool :=
  Z.leb (min_value w) v &&
  match max_value w with
  | Some hi => Z.leb v hi
  | None => true
  end.

(** [st.selectbox(label, options=, index=)]: the widget holds one of
    [options], initially the one at [index]. *)
Record selectbox (A : Type) : Type :=
  Selectbox { sb_label : string; options : list A; index : nat }.
Arguments Selectbox {A} sb_label options index.
Arguments sb_label {A} _.
Arguments options {A} _.
Arguments index {A} _.

Definition offers {A} `{EqDecision A} (w : selectbox A) (x : A) : bool :=
  bool_decide (x ∈ options w).

Definition age_input : number_input :=
  NumberInput "Age (Years)" 18 (Some 100) 35.
Definition credit_amount_input : number_input :=
  NumberInput "Credit Amount (DM)" 500 None 6500.
Definition duration_input : number_input :=
  NumberInput "Loan Duration (Months)" 6 (Some 72) 24.

Definition sex_select : selectbox string :=
  Selectbox "Sex" ["male"; "female"] 0.

(** [options=list(JOB_OPTIONS.keys())]; without [index=] the first
    option is selected. *)
Definition job_select : selectbox Z :=
  Selectbox "Job Classification" (map fst JOB_OPTIONS) 0.

(** [format_func=lambda x: JOB_OPTIONS[x]]. *)
Definition job_format_func (x : Z) : option string :=
  snd <$> List.find (λ kv, Z.eqb (fst kv) x) JOB_OPTIONS.

Definition housing_select : selectbox string :=
  Selectbox "Housing Status" ["rent"; "own"; "free"] 1.
Definition saving_accounts_select : selectbox string :=
  Selectbox "Saving Accounts" ["little"; "moderate"; "quite rich"; "rich"] 0.
Definition checking_account_select : selectbox string :=
  Selectbox "Checking Account" ["little"; "moderate"; "rich"; "no checking"] 1.
Definition purpose_select : selectbox string :=
  Selectbox "Purpose of Loan"
    ["car"; "furniture/equipment"; "radio/TV"; "domestic appliances"; "repairs";
     "education"; "business"; "vacation/others"] 0.

(** The values held by the nine widgets during one run of the script. *)
Record ApplicantInput : Type := {
  age : Z;
  credit_amount : Z;
  duration : Z;
  sex : string;
  job_index : Z;
  housing : string;
  saving_accounts : string;
  checking_account : string;
  purpose : string
}.

(** Every widget holds a value it accepts or offers. *)
Definition valid_input (a : ApplicantInput) : bool :=
  accepts age_input (age a) &&
  accepts credit_amount_input (credit_amount a) &&
  accepts duration_input (duration a) &&
  offers sex_select (sex a) &&
  offers job_select (job_index a) &&
  offers housing_select (housing a) &&
  offers saving_accounts_select (saving_accounts a) &&
  offers checking_account_select (checking_account a) &&
  offers purpose_select (purpose a).

(** The form before the user touches it. *)
Definition initial_input : ApplicantInput := {|
  age := value age_input;
  credit_amount := value credit_amount_input;
  duration := value duration_input;
  sex := default "" (options sex_select !! index sex_select);
  job_index := default 0 (options job_select !! index job_select);
  housing := default "" (options housing_select !! index housing_select);
  saving_accounts :=
    default "" (options saving_accounts_select !! index saving_accounts_select);
  checking_account :=
    default "" (options checking_account_select !! index checking_account_select);
  purpose := default "" (options purpose_select !! index purpose_select)
|}.

(** ** 4. Payload *)

(** [int(x)] on an [int]. *)
Definition py_int (x : Z) : Z := x.

Definition input_data (a : ApplicantInput) : gmap string Py.obj :=
  list_to_map
    [ ("Age", Py.PInt (py_int (age a)));
      ("Duration", Py.PInt (py_int (duration a)));
      ("Credit_amount", Py.PInt (py_int (credit_amount a)));
      ("Job", Py.PInt (py_int (job_index a)));
      ("Sex", Py.PStr (sex a));
      ("Housing", Py.PStr (housing a));
      ("Saving_accounts", Py.PStr (saving_accounts a));
      ("Checking_account", Py.PStr (checking_account a));
      ("Purpose", Py.PStr (purpose a)) ].

(** The request that one press of the button sends. *)
Definition predict_request (a : ApplicantInput) : request :=
  {| url := API_URL; json := Py.PDict (input_data a) |}.

(** ** 5, 6. Prediction and result card *)

Definition dq : string := String "034"%char EmptyString.
Definition nl : string := String "010"%char EmptyString.

(** The f-string handed to [st.markdown] on line 198. *)
Definition risk_card (color label segment_name : string) : string :=
  nl +:+
  "        <div class=" +:+ dq +:+ "risk-card" +:+ dq +:+ " style=" +:+ dq
    +:+ "background-color: " +:+ color +:+ ";" +:+ dq +:+ ">" +:+ nl +:+
  "            <div class=" +:+ dq +:+ "risk-label" +:+ dq +:+ ">"
    +:+ label +:+ "</div>" +:+ nl +:+
  "            <div class=" +:+ dq +:+ "risk-segment" +:+ dq +:+ ">Predicted Segment: "
    +:+ segment_name +:+ "</div>" +:+ nl +:+
  "        </div>" +:+ nl +:+
  "        ".

(** The [if]/[elif] chain on [segment_id]: the pair [(color, label)]. *)
Definition segment_visual (segment_id : Py.obj) : string * string :=
  if Py.eq_int segment_id 0 then ("var(--low-risk)", "Low Risk Segment")
  else if Py.eq_int segment_id 1 then ("var(--medium-risk)", "Medium Risk Segment")
  else if Py.eq_int segment_id 2 then ("var(--high-risk)", "High Risk Segment")
  else ("var(--border-color)", "Prediction Error").

Section Dashboard.

Variable repr : Py.obj → string.
Variable net : network.

(** The body of [if st.button("Predict Risk Segment", ...):]. *)
Definition predict_button (a : ApplicantInput) : M unit :=
  let input_data := Py.PDict (input_data a) in
  let* prediction_result :=
    st_spinner "Analyzing data via MLOps Pipeline..."
      (get_prediction repr net input_data) in
  if Py.truthy prediction_result then
    let* segment_id := py_get prediction_result "risk_segment_id" (Py.PInt 99) in
    let* segment_name :=
      py_get prediction_result "risk_segment_name" (Py.PStr "Unknown Segment") in
    let '(color, label) := segment_visual segment_id in
    st_markdown (risk_card color label (Py.str repr segment_name)) true >>
    st_success "Prediction complete! Result received from FastAPI API."
  else ret tt.

(** The part of one run of the script that follows the form: the block
    runs only when the button was pressed. *)
Definition script (button : bool) (a : ApplicantInput) : M unit :=
  if button then predict_button a else ret tt.

End Dashboard.

(** ** The error report in the words of the specification *)

(** "extract a human-readable detail message from the body (falling back
    to a generic Unknown API Error string if absent)". *)
Definition spec_detail_message (repr : Py.obj → string) (r : response) : string :=
  match body_json r with
  | inr (Py.PDict d) =>
      match d !! "detail" with
      | Some detail => Py.str repr detail
      | None => "Unknown API Error"
      end
  | _ => "Unknown API Error"
  end.

(** "report it to the user; return no result": the call returns [None]
    and one of the errors it has written carries the detail message. *)
Definition reports_detail (repr : Py.obj → string) (net : network)
    (data : Py.obj) (w : world) (r : response) : Prop :=
  ∃ shown,
    get_prediction repr net data w
    = (Returned Py.PNone,
       {| sent := sent w ++ [Request API_URL data]; page := page w ++ shown |})
    ∧ ∃ text, St.error text ∈ shown
              ∧ Py.contains (spec_detail_message repr r) text = true.

(** ** Sample traffic

    The responses and failures used in the examples of the specification. *)

(** The interpreter's [repr] is left out of the examples: none of them
    formats a float, a list or a dict. *)
Definition no_repr : Py.obj → string := λ _, "".

Definition blank : world := {| sent := []; page := [] |}.



(** [422 {"detail": "Age must be positive"}] *)
Definition age_must_be_positive : response :=
  {| status_code := 422;
     body_json :=
       inr (Py.PDict (list_to_map [ ("detail", Py.PStr "Age must be positive") ])) |}.

(** A plain-text [500 Internal Server Error]: [response.json()] fails. *)
Definition internal_server_error : response :=
  {| status_code := 500;
     body_json := inl "Expecting value: line 1 column 1 (char 0)" |}.

(** A 200 response whose body is not JSON either. *)
Definition garbled_ok : response :=
  {| status_code := 200;
     body_json := inl "Expecting value: line 1 column 1 (char 0)" |}.

(** Nothing listens on the port. *)
Definition connection_refused : Py.exn :=
  Py.Exn Py.ConnectionError "Connection refused".

(** A network that gives the same answer to every request. *)
Definition always (o : post_outcome) : network := λ _ _, o.

(** ** The stylesheet

    The text handed to the first [st.markdown] of the script (lines 49
    to 118), with HTML allowed. *)
Definition page_style : string :=
  nl +:+
  "    <style>" +:+ nl +:+
  "    /* Modern Dashboard Styling */" +:+ nl +:+
  "    :root {" +:+ nl +:+
  "        --bg-primary: #121212;" +:+ nl +:+
  "        --bg-secondary: #1e1e1e;" +:+ nl +:+
  "        --text-color: #e0e0e0;" +:+ nl +:+
  "        --accent-color: #1abc9c; /* Teal for high-impact buttons/results */" +:+ nl +:+
  "        --low-risk: #27ae60;    /* Green */" +:+ nl +:+
  "        --medium-risk: #f1c40f; /* Yellow */" +:+ nl +:+
  "        --high-risk: #e74c3c;   /* Red */" +:+ nl +:+
  "        --border-color: #333333;" +:+ nl +:+
  "    }" +:+ nl +:+
  nl +:+
  "    .stApp { background-color: var(--bg-primary); color: var(--text-color); }" +:+
    nl +:+
  nl +:+
  "    .stTitle { " +:+ nl +:+
  "        color: var(--accent-color); " +:+ nl +:+
  "        font-weight: 700;" +:+ nl +:+
  "        border-bottom: 2px solid var(--border-color);" +:+ nl +:+
  "        padding-bottom: 10px;" +:+ nl +:+
  "    }" +:+ nl +:+
  nl +:+
  "    /* Input containers */" +:+ nl +:+
  "    .stTextInput > div > div > input, " +:+ nl +:+
  "    .stNumberInput > div > div > input {" +:+ nl +:+
  "        background-color: var(--bg-secondary) !important;" +:+ nl +:+
  "        color: var(--text-color) !important;" +:+ nl +:+
  "        border: 1px solid var(--border-color);" +:+ nl +:+
  "        border-radius: 8px;" +:+ nl +:+
  "        padding: 10px;" +:+ nl +:+
  "    }" +:+ nl +:+
  nl +:+
  "    /* Selectbox Fix: Ensure the selected text inside the box is clearly visible */" +:+
    nl +:+
  "    div.stSelectbox > div[data-testid=" +:+ dq +:+ "stTextInput" +:+ dq +:+ "], " +:+
    nl +:+
  "    div.stSelectbox > div[role=" +:+ dq +:+ "combobox" +:+ dq +:+
    "] div[data-testid=" +:+ dq +:+ "stTextInput" +:+ dq +:+ "] {" +:+ nl +:+
  "        background-color: var(--bg-secondary) !important;" +:+ nl +:+
  "        color: var(--text-color) !important; " +:+ nl +:+
  "        border: 1px solid var(--border-color);" +:+ nl +:+
  "        border-radius: 8px;" +:+ nl +:+
  "    }" +:+ nl +:+
  "    /* Ensure the selected value text is also correctly colored */" +:+ nl +:+
  "    div.stSelectbox div[data-baseweb=" +:+ dq +:+ "select" +:+ dq +:+ "] div[role=" +:+
    dq +:+ "button" +:+ dq +:+ "] {" +:+ nl +:+
  "        color: var(--text-color) !important;" +:+ nl +:+
  "    }" +:+ nl +:+
  nl +:+
  nl +:+
  "    /* Custom Result Card Styles */" +:+ nl +:+
  "    .risk-card {" +:+ nl +:+
  "        border-radius: 15px;" +:+ nl +:+
  "        padding: 25px;" +:+ nl +:+
  "        box-shadow: 0 4px 15px rgba(0, 0, 0, 0.5);" +:+ nl +:+
  "        color: white;" +:+ nl +:+
  "        text-align: center;" +:+ nl +:+
  "        margin-top: 30px;" +:+ nl +:+
  "        min-height: 200px;" +:+ nl +:+
  "        display: flex;" +:+ nl +:+
  "        flex-direction: column;" +:+ nl +:+
  "        justify-content: center;" +:+ nl +:+
  "    }" +:+ nl +:+
  "    .risk-label {" +:+ nl +:+
  "        font-size: 2.5em;" +:+ nl +:+
  "        font-weight: 800;" +:+ nl +:+
  "    }" +:+ nl +:+
  "    .risk-segment {" +:+ nl +:+
  "        font-size: 1.2em;" +:+ nl +:+
  "        margin-top: 10px;" +:+ nl +:+
  "    }" +:+ nl +:+
  "    </style>" +:+ nl.

(** ** Several presses in a row *)

(** The user presses the button [n] times without touching the form:
    each press is one more run of the script, on the world the previous
    run left behind. *)
Fixpoint presses (repr : Py.obj → string) (net : network) (n : nat)
    (a : ApplicantInput) (w : world) : world :=
  match n with
  | O => w
  | S n' => presses repr net n' a (snd (script repr net true a w))
  end.

(** * Properties *)

(** ** Strings *)

Lemma prefix_app (s t : string) : String.prefix s (s +:+ t) = true.
Proof.
  induction s as [|c s IH]; simpl.
  - by destruct t.
  - destruct (ascii_dec c c); [exact IH | congruence].
Qed.

Lemma contains_prefix (sub s : string) :
  String.prefix sub s = true → Py.contains sub s = true.
Proof. intros H. destruct s; cbn [Py.contains]; by rewrite H. Qed.

Lemma prefix_refl (s : string) : String.prefix s s = true.
Proof.
  induction s as [|c s IH]; simpl; [done|].
  destruct (ascii_dec c c); [exact IH | congruence].
Qed.

Lemma contains_self (s : string) : Py.contains s s = true.
Proof. apply contains_prefix, prefix_refl. Qed.

(** Text put in front of a string hides nothing of it. *)
Lemma contains_skip (pre sub s : string) :
  Py.contains sub s = true → Py.contains sub (pre +:+ s) = true.
Proof.
  intros H. induction pre as [|c pre IH]; [exact H|].
  change (String c pre +:+ s) with (String c (pre +:+ s)).
  cbn [Py.contains]. rewrite IH. apply orb_true_r.
Qed.

(** A string contains each of the pieces it was concatenated from. *)
Lemma contains_app (pre sub post : string) :
  Py.contains sub (pre +:+ sub +:+ post) = true.
Proof. apply contains_skip, contains_prefix, prefix_app. Qed.

Lemma append_assoc (a b c : string) : (a +:+ b) +:+ c = a +:+ b +:+ c.
Proof.
  induction a as [|ch a IH]; [reflexivity|].
  change (String ch ((a +:+ b) +:+ c) = String ch (a +:+ b +:+ c)).
  by rewrite IH.
Qed.

Lemma contains_head3 (x y z rest : string) :
  Py.contains (x +:+ y +:+ z) (x +:+ y +:+ z +:+ rest) = true.
Proof.
  apply contains_prefix.
  replace (x +:+ y +:+ z +:+ rest) with ((x +:+ y +:+ z) +:+ rest)
    by (by rewrite !append_assoc).
  apply prefix_app.
Qed.

(** The three places where [risk_card] splices its arguments in. *)
Lemma risk_card_parts (color label segment_name : string) :
  Py.contains ("background-color: " +:+ color +:+ ";")
    (risk_card color label segment_name) = true
  ∧ Py.contains (">" +:+ label +:+ "</div>")
      (risk_card color label segment_name) = true
  ∧ Py.contains (">Predicted Segment: " +:+ segment_name +:+ "</div>")
      (risk_card color label segment_name) = true.
Proof.
  unfold risk_card. repeat split.
  - do 7 apply contains_skip. apply contains_head3.
  - do 17 apply contains_skip. apply contains_head3.
  - do 25 apply contains_skip. apply contains_head3.
Qed.

(** ** Running the monad *)

Lemma bind_returned {A B} (c : M A) (k : A → M B) w a w' :
  c w = (Returned a, w') → bind c k w = k a w'.
Proof. unfold bind. by intros ->. Qed.

Lemma bind_raised {A B} (c : M A) (k : A → M B) w e w' :
  c w = (Raised e, w') → bind c k w = (Raised e, w').
Proof. unfold bind. by intros ->. Qed.

Lemma try_except_returned {A} (body : M A) clauses w a w' :
  body w = (Returned a, w') → try_except body clauses w = (Returned a, w').
Proof. unfold try_except. by intros ->. Qed.

Lemma try_except_raised {A} (body : M A) clauses w e w' :
  body w = (Raised e, w') → try_except body clauses w = dispatch clauses e w'.
Proof. unfold try_except. by intros ->. Qed.

(** ** The suite under [try:], outcome by outcome *)

Section ClientFacts.

Variable repr : Py.obj → string.
Variable net : network.

Implicit Types (data : Py.obj) (w : world) (r : response) (e : Py.exn).

Lemma try_post_failed data w e :
  net (length (sent w)) (Request API_URL data) = Failed e →
  get_prediction_try repr net data w = (Raised e, send (Request API_URL data) w).
Proof.
  intros Hnet. unfold get_prediction_try.
  apply bind_raised. unfold requests_post. by rewrite Hnet.
Qed.

Lemma try_responded data w r :
  net (length (sent w)) (Request API_URL data) = Responded r →
  requests_post net API_URL data w = (Returned r, send (Request API_URL data) w).
Proof. intros Hnet. unfold requests_post. by rewrite Hnet. Qed.

Lemma try_200_parsed data w r v :
  net (length (sent w)) (Request API_URL data) = Responded r →
  status_code r = 200 →
  body_json r = inr v →
  get_prediction_try repr net data w = (Returned v, send (Request API_URL data) w).
Proof.
  intros Hnet Hst Hb. unfold get_prediction_try.
  rewrite (bind_returned _ _ _ _ _ (try_responded _ _ _ Hnet)).
  rewrite Hst. simpl. unfold response_json. by rewrite Hb.
Qed.

Lemma try_undecodable data w r msg :
  net (length (sent w)) (Request API_URL data) = Responded r →
  body_json r = inl msg →
  get_prediction_try repr net data w
  = (Raised (Py.Exn Py.JSONDecodeError msg), send (Request API_URL data) w).
Proof.
  intros Hnet Hb. unfold get_prediction_try.
  rewrite (bind_returned _ _ _ _ _ (try_responded _ _ _ Hnet)).
  destruct (Z.eqb (status_code r) 200); unfold response_json; rewrite Hb.
  - done.
  - by apply bind_raised.
Qed.

Lemma try_non_200_dict data w r d :
  net (length (sent w)) (Request API_URL data) = Responded r →
  status_code r ≠ 200 →
  body_json r = inr (Py.PDict d) →
  get_prediction_try repr net data w
  = (Returned Py.PNone,
     write (St.warning
              "Ensure your Project 2 FastAPI server is running in a separate terminal.")
       (write (St.error
                 ("API Error (" +:+ Py.str_int (status_code r) +:+ "): "
                  +:+ Py.str repr (default (Py.PStr "Unknown API Error") (d !! "detail"))))
          (send (Request API_URL data) w))).
Proof.
  intros Hnet Hst Hb. unfold get_prediction_try.
  rewrite (bind_returned _ _ _ _ _ (try_responded _ _ _ Hnet)).
  apply Z.eqb_neq in Hst. rewrite Hst.
  unfold response_json. rewrite Hb. reflexivity.
Qed.

Lemma try_non_200_not_dict data w r v :
  net (length (sent w)) (Request API_URL data) = Responded r →
  status_code r ≠ 200 →
  body_json r = inr v →
  (∀ d, v ≠ Py.PDict d) →
  get_prediction_try repr net data w
  = (Raised (Py.Exn Py.AttributeError
               ("'" +:+ Py.type_name v +:+ "' object has no attribute 'get'")),
     send (Request API_URL data) w).
Proof.
  intros Hnet Hst Hb Hv. unfold get_prediction_try.
  rewrite (bind_returned _ _ _ _ _ (try_responded _ _ _ Hnet)).
  apply Z.eqb_neq in Hst. rewrite Hst.
  unfold response_json. rewrite Hb.
  destruct v; try reflexivity. by destruct (Hv d).
Qed.

(** Whatever the suite does, it sends the request and nothing else. *)
Lemma try_sends_once data w :
  sent (snd (get_prediction_try repr net data w)) = sent w ++ [Request API_URL data].
Proof.
  destruct (net (length (sent w)) (Request API_URL data)) as [r|e] eqn:Hnet.
  - destruct (body_json r) as [msg|v] eqn:Hb.
    + by rewrite (try_undecodable _ _ _ _ Hnet Hb).
    + destruct (decide (status_code r = 200)) as [Hst|Hst].
      * by rewrite (try_200_parsed _ _ _ _ Hnet Hst Hb).
      * destruct v;
          try (rewrite (try_non_200_not_dict _ _ _ _ Hnet Hst Hb); [done|congruence]).
        by rewrite (try_non_200_dict _ _ _ _ Hnet Hst Hb).
  - by rewrite (try_post_failed _ _ _ Hnet).
Qed.

(** A raising suite has written nothing to the page. *)
Lemma try_raised_page data w e w1 :
  get_prediction_try repr net data w = (Raised e, w1) →
  w1 = send (Request API_URL data) w.
Proof.
  destruct (net (length (sent w)) (Request API_URL data)) as [r|e'] eqn:Hnet.
  - destruct (body_json r) as [msg|v] eqn:Hb.
    + rewrite (try_undecodable _ _ _ _ Hnet Hb). congruence.
    + destruct (decide (status_code r = 200)) as [Hst|Hst].
      * rewrite (try_200_parsed _ _ _ _ Hnet Hst Hb). congruence.
      * destruct v;
          try (rewrite (try_non_200_not_dict _ _ _ _ Hnet Hst Hb); congruence).
        rewrite (try_non_200_dict _ _ _ _ Hnet Hst Hb). congruence.
  - rewrite (try_post_failed _ _ _ Hnet). congruence.
Qed.

(** The two [except] suites. *)
Lemma except_connection_error data w e w1 :
  get_prediction_try repr net data w = (Raised e, w1) →
  Py.is_ConnectionError e = true →
  get_prediction repr net data w
  = (Returned Py.PNone,
     write (St.warning ("Please ensure your Project 2 FastAPI server is running at "
                        +:+ API_URL +:+ "."))
       (write (St.error "Connection Error: Could not connect to the Prediction API.")
          w1)).
Proof.
  intros Htry Hc. unfold get_prediction.
  rewrite (try_except_raised _ _ _ _ _ Htry). simpl. by rewrite Hc.
Qed.

Lemma except_exception data w e w1 :
  get_prediction_try repr net data w = (Raised e, w1) →
  Py.is_ConnectionError e = false →
  get_prediction repr net data w
  = (Returned Py.PNone,
     write (St.error ("An unexpected error occurred: " +:+ Py.exn_str e)) w1).
Proof.
  intros Htry Hc. unfold get_prediction.
  rewrite (try_except_raised _ _ _ _ _ Htry). simpl. by rewrite Hc.
Qed.

End ClientFacts.

(** ** The button block, by what [get_prediction] returned *)

Section DashboardFacts.

Variable repr : Py.obj → string.
Variable net : network.

Implicit Types (a : ApplicantInput) (w : world) (r : response).

Lemma predict_button_falsy a w v w' :
  get_prediction repr net (Py.PDict (input_data a))
    (write (St.spinner "Analyzing data via MLOps Pipeline...") w)
  = (Returned v, w') →
  Py.truthy v = false →
  predict_button repr net a w = (Returned tt, w').
Proof.
  intros Hget Hv. unfold predict_button.
  rewrite (bind_returned (st_spinner _ _) _ w _ _ Hget). by rewrite Hv.
Qed.

Lemma predict_button_dict a w d w' :
  get_prediction repr net (Py.PDict (input_data a))
    (write (St.spinner "Analyzing data via MLOps Pipeline...") w)
  = (Returned (Py.PDict d), w') →
  Py.truthy (Py.PDict d) = true →
  predict_button repr net a w
  = (Returned tt,
     write (St.success "Prediction complete! Result received from FastAPI API.")
       (write (St.markdown
                 (risk_card
                    (fst (segment_visual (default (Py.PInt 99) (d !! "risk_segment_id"))))
                    (snd (segment_visual (default (Py.PInt 99) (d !! "risk_segment_id"))))
                    (Py.str repr
                       (default (Py.PStr "Unknown Segment") (d !! "risk_segment_name"))))
                 true)
          w')).
Proof.
  intros Hget Hv. unfold predict_button.
  rewrite (bind_returned (st_spinner _ _) _ w _ _ Hget). rewrite Hv.
  unfold py_get, bind, ret.
  by destruct (segment_visual (default (Py.PInt 99) (d !! "risk_segment_id"))).
Qed.

(** A truthy result that is not a dict has no [get]: the block raises
    before it writes anything. *)
Lemma predict_button_not_dict a w v w' :
  get_prediction repr net (Py.PDict (input_data a))
    (write (St.spinner "Analyzing data via MLOps Pipeline...") w)
  = (Returned v, w') →
  Py.truthy v = true →
  (∀ d, v ≠ Py.PDict d) →
  predict_button repr net a w
  = (Raised (Py.Exn Py.AttributeError
               ("'" +:+ Py.type_name v +:+ "' object has no attribute 'get'")),
     w').
Proof.
  intros Hget Hv Hnd. unfold predict_button.
  rewrite (bind_returned (st_spinner _ _) _ w _ _ Hget). rewrite Hv.
  destruct v; try reflexivity. by destruct (Hnd d).
Qed.

(** A 200 response with a decodable body goes through [get_prediction]
    untouched. *)
Lemma get_prediction_200 data w r v :
  net (length (sent w)) (Request API_URL data) = Responded r →
  status_code r = 200 →
  body_json r = inr v →
  get_prediction repr net data w = (Returned v, send (Request API_URL data) w).
Proof.
  intros Hnet Hst Hb. unfold get_prediction.
  apply try_except_returned. by apply (try_200_parsed _ _ _ _ r).
Qed.

(** [get_prediction] returns, and has sent exactly one request. *)
Lemma get_prediction_returns data w :
  ∃ v w', get_prediction repr net data w = (Returned v, w')
          ∧ sent w' = sent w ++ [Request API_URL data].
Proof.
  destruct (get_prediction_try repr net data w) as [[v|e] w1] eqn:Htry.
  - exists v, w1. split.
    + unfold get_prediction. by apply try_except_returned.
    + pose proof (try_sends_once repr net data w) as Hs. by rewrite Htry in Hs.
  - pose proof (try_raised_page _ _ _ _ _ _ Htry) as ->.
    destruct (Py.is_ConnectionError e) eqn:Hc.
    + eexists _, _. split; [by eapply except_connection_error|done].
    + eexists _, _. split; [by eapply except_exception|done].
Qed.

(** The block never sends more than the one request of [get_prediction]. *)
Lemma predict_button_sends_once a w :
  sent (snd (predict_button repr net a w)) = sent w ++ [predict_request a].
Proof.
  destruct (get_prediction_returns (Py.PDict (input_data a))
              (write (St.spinner "Analyzing data via MLOps Pipeline...") w))
    as (v & w' & Hget & Hsent).
  unfold predict_button.
  rewrite (bind_returned (st_spinner _ _) _ w _ _ Hget).
  destruct (Py.truthy v); [|exact Hsent].
  destruct v; try exact Hsent.
  unfold py_get, bind, ret.
  by destruct (segment_visual (default (Py.PInt 99) (d !! "risk_segment_id"))).
Qed.

End DashboardFacts.

(** ** Payload *)

Lemma offers_elem_of {A} `{EqDecision A} (sb : selectbox A) (x : A) :
  offers sb x = true → x ∈ options sb.
Proof. unfold offers. apply bool_decide_eq_true_1. Qed.

Lemma accepts_age (v : Z) : accepts age_input v = true ↔ 18 ≤ v ≤ 100.
Proof. unfold accepts, age_input; simpl. rewrite andb_true_iff, !Z.leb_le. lia. Qed.

(** C2. For a valid ApplicantInput, pressing the button sends a payload
    with exactly the nine keys [Age], [Duration], [Credit_amount], [Job],
    [Sex], [Housing], [Saving_accounts], [Checking_account], [Purpose];
    the first four hold integers (the widget values), the other five
    hold strings taken from the option list of their select box. *)
Theorem payload_keys_and_types (a : ApplicantInput) (Hvalid : valid_input a = true) :
  (∀ repr net w,
     sent (snd (predict_button repr net a w))
     = sent w ++ [ {| url := API_URL; json := Py.PDict (input_data a) |} ])
  ∧ dom (input_data a)
    = ({[ "Age"; "Duration"; "Credit_amount"; "Job"; "Sex"; "Housing";
          "Saving_accounts"; "Checking_account"; "Purpose" ]} : gset string)
  ∧ input_data a !! "Age" = Some (Py.PInt (age a))
  ∧ input_data a !! "Duration" = Some (Py.PInt (duration a))
  ∧ input_data a !! "Credit_amount" = Some (Py.PInt (credit_amount a))
  ∧ input_data a !! "Job" = Some (Py.PInt (job_index a))
  ∧ (input_data a !! "Sex" = Some (Py.PStr (sex a))
     ∧ sex a ∈ options sex_select)
  ∧ (input_data a !! "Housing" = Some (Py.PStr (housing a))
     ∧ housing a ∈ options housing_select)
  ∧ (input_data a !! "Saving_accounts" = Some (Py.PStr (saving_accounts a))
     ∧ saving_accounts a ∈ options saving_accounts_select)
  ∧ (input_data a !! "Checking_account" = Some (Py.PStr (checking_account a))
     ∧ checking_account a ∈ options checking_account_select)
  ∧ (input_data a !! "Purpose" = Some (Py.PStr (purpose a))
     ∧ purpose a ∈ options purpose_select).
Proof.
  unfold valid_input in Hvalid.
  repeat (apply andb_prop in Hvalid as [Hvalid ?]).
  split; [intros; apply predict_button_sends_once|].
  split; [unfold input_data; rewrite dom_list_to_map_L; set_solver|].
  repeat split; try reflexivity; by apply offers_elem_of.
Qed.

(** The untouched form is valid, and its payload has the nine keys. *)
Lemma payload_keys_and_types_witness :
  valid_input initial_input = true
  ∧ dom (input_data initial_input)
    = ({[ "Age"; "Duration"; "Credit_amount"; "Job"; "Sex"; "Housing";
          "Saving_accounts"; "Checking_account"; "Purpose" ]} : gset string).
Proof.
  split; [reflexivity|].
  exact (proj1 (proj2 (payload_keys_and_types initial_input eq_refl))).
Defined.

(** C7. The Age field accepts 18 and accepts 100, and an accepted Age
    reaches the payload unchanged, as an integer. *)
Theorem age_bounds_forwarded (a : ApplicantInput)
    (Haccepted : accepts age_input (age a) = true) :
  accepts age_input 18 = true
  ∧ accepts age_input 100 = true
  ∧ input_data a !! "Age" = Some (Py.PInt (age a))
  ∧ ∀ repr net w,
      ∃ payload, sent (snd (predict_button repr net a w))
                 = sent w ++ [ {| url := API_URL; json := Py.PDict payload |} ]
                 ∧ payload !! "Age" = Some (Py.PInt (age a)).
Proof.
  repeat split; try reflexivity.
  intros. exists (input_data a). split; [apply predict_button_sends_once|reflexivity].
Qed.

(** Age 18 and age 100, each forwarded as it is. *)
Lemma age_bounds_forwarded_witness :
  let youngest := {| age := 18; credit_amount := 6500; duration := 24; sex := "male";
                     job_index := 0; housing := "own"; saving_accounts := "little";
                     checking_account := "moderate"; purpose := "car" |} in
  let oldest := {| age := 100; credit_amount := 6500; duration := 24; sex := "male";
                   job_index := 0; housing := "own"; saving_accounts := "little";
                   checking_account := "moderate"; purpose := "car" |} in
  input_data youngest !! "Age" = Some (Py.PInt 18)
  ∧ input_data oldest !! "Age" = Some (Py.PInt 100).
Proof.
  intros youngest oldest. split.
  - exact (proj1 (proj2 (proj2 (age_bounds_forwarded youngest eq_refl)))).
  - exact (proj1 (proj2 (proj2 (age_bounds_forwarded oldest eq_refl)))).
Defined.

(** ** Result card *)


(** [if d:] on a dict asks whether it has an item. *)
Lemma truthy_dict (d : gmap string Py.obj) :
  Py.truthy (Py.PDict d) = true ↔ d ≠ ∅.
Proof.
  simpl. rewrite negb_true_iff, Nat.eqb_neq. apply map_size_non_empty_iff.
Qed.

(** What is on the page after a 200 response with a non-empty object. *)
Lemma predict_button_200_dict repr net a w r d :
  net (length (sent w)) (predict_request a) = Responded r →
  status_code r = 200 →
  body_json r = inr (Py.PDict d) →
  Py.truthy (Py.PDict d) = true →
  predict_button repr net a w
  = (Returned tt,
     {| sent := sent w ++ [predict_request a];
        page := page w ++
          [ St.spinner "Analyzing data via MLOps Pipeline...";
            St.markdown
              (risk_card
                 (fst (segment_visual (default (Py.PInt 99) (d !! "risk_segment_id"))))
                 (snd (segment_visual (default (Py.PInt 99) (d !! "risk_segment_id"))))
                 (Py.str repr
                    (default (Py.PStr "Unknown Segment") (d !! "risk_segment_name"))))
              true;
            St.success "Prediction complete! Result received from FastAPI API." ] |}).
Proof.
  intros Hnet Hst Hb Ht.
  erewrite predict_button_dict;
    [|by apply (get_prediction_200 _ _ _ _ r)|done].
  unfold write, send; simpl. by rewrite <- !app_assoc.
Qed.





(** C10. A 200 response whose decoded body is falsy is returned by
    [get_prediction] as it is; the block then writes neither a card nor
    an error: only the spinner has been shown. *)
Theorem falsy_body_shows_nothing repr net a w r v
    (Hnet : net (length (sent w)) (predict_request a) = Responded r)
    (Hstatus : status_code r = 200)
    (Hbody : body_json r = inr v)
    (Hfalsy : Py.truthy v = false) :
  get_prediction repr net (Py.PDict (input_data a)) w
  = (Returned v, send (predict_request a) w)
  ∧ predict_button repr net a w
    = (Returned tt,
       {| sent := sent w ++ [predict_request a];
          page := page w ++ [ St.spinner "Analyzing data via MLOps Pipeline..." ] |})
  ∧ (∀ el, el ∈ [ St.spinner "Analyzing data via MLOps Pipeline..." ] →
       St.is_markdown el = false ∧ St.is_error el = false).
Proof.
  split; [by apply (get_prediction_200 _ _ _ _ r)|].
  split.
  - rewrite (predict_button_falsy repr net a w v _
               (get_prediction_200 repr net _
                  (write (St.spinner "Analyzing data via MLOps Pipeline...") w)
                  r v Hnet Hstatus Hbody) Hfalsy).
    reflexivity.
  - intros el Hel. apply list_elem_of_singleton in Hel as ->. done.
Qed.

(** The empty object [{}] with status 200. *)
Lemma falsy_body_shows_nothing_witness :
  predict_button no_repr (always (Responded (Response 200 (inr (Py.PDict ∅)))))
    initial_input blank
  = (Returned tt,
     {| sent := [predict_request initial_input];
        page := [ St.spinner "Analyzing data via MLOps Pipeline..." ] |}).
Proof.
  exact (proj1 (proj2 (falsy_body_shows_nothing no_repr
                         (always (Responded (Response 200 (inr (Py.PDict ∅)))))
                         initial_input blank (Response 200 (inr (Py.PDict ∅)))
                         (Py.PDict ∅) eq_refl eq_refl eq_refl eq_refl))).
Defined.

(** ** Failure paths of [get_prediction] *)

Section FailurePaths.

Variable repr : Py.obj → string.
Variable net : network.

Implicit Types (data : Py.obj) (a : ApplicantInput) (w : world) (r : response).

Lemma get_prediction_non_200_dict data w r d :
  net (length (sent w)) (Request API_URL data) = Responded r →
  status_code r ≠ 200 →
  body_json r = inr (Py.PDict d) →
  get_prediction repr net data w
  = (Returned Py.PNone,
     {| sent := sent w ++ [Request API_URL data];
        page := page w ++
          [ St.error ("API Error (" +:+ Py.str_int (status_code r) +:+ "): "
                      +:+ Py.str repr
                            (default (Py.PStr "Unknown API Error") (d !! "detail")));
            St.warning
              "Ensure your Project 2 FastAPI server is running in a separate terminal." ] |}).
Proof.
  intros Hnet Hst Hb. unfold get_prediction.
  rewrite (try_except_returned _ _ _ _ _ (try_non_200_dict repr net _ _ _ _ Hnet Hst Hb)).
  unfold write, send; simpl. by rewrite <- app_assoc.
Qed.

Lemma get_prediction_connection_error data w e :
  get_prediction_try repr net data w = (Raised e, send (Request API_URL data) w) →
  Py.is_ConnectionError e = true →
  get_prediction repr net data w
  = (Returned Py.PNone,
     {| sent := sent w ++ [Request API_URL data];
        page := page w ++
          [ St.error "Connection Error: Could not connect to the Prediction API.";
            St.warning ("Please ensure your Project 2 FastAPI server is running at "
                        +:+ API_URL +:+ ".") ] |}).
Proof.
  intros Htry Hc. rewrite (except_connection_error _ _ _ _ _ _ Htry Hc).
  unfold write, send; simpl. by rewrite <- app_assoc.
Qed.

Lemma get_prediction_unexpected data w e :
  get_prediction_try repr net data w = (Raised e, send (Request API_URL data) w) →
  Py.is_ConnectionError e = false →
  get_prediction repr net data w
  = (Returned Py.PNone,
     {| sent := sent w ++ [Request API_URL data];
        page := page w ++
          [ St.error ("An unexpected error occurred: " +:+ Py.exn_str e) ] |}).
Proof. intros Htry Hc. by rewrite (except_exception _ _ _ _ _ _ Htry Hc). Qed.

(** When [get_prediction] came back with [None], the block shows what
    [get_prediction] wrote under the spinner, and nothing more. *)
Lemma predict_button_none a w shown :
  (get_prediction repr net (Py.PDict (input_data a))
     (write (St.spinner "Analyzing data via MLOps Pipeline...") w)
   = (Returned Py.PNone,
      {| sent := sent w ++ [predict_request a];
         page := (page w ++ [St.spinner "Analyzing data via MLOps Pipeline..."])
                 ++ shown |})) →
  predict_button repr net a w
  = (Returned tt,
     {| sent := sent w ++ [predict_request a];
        page := page w ++ St.spinner "Analyzing data via MLOps Pipeline..." :: shown |}).
Proof.
  intros Hget. rewrite (predict_button_falsy repr net a w _ _ Hget eq_refl).
  by rewrite <- app_assoc.
Qed.

(** Every way out of [get_prediction]: it returns, one request has gone
    out, and either the body of a 200 response is handed back with
    nothing written, or [None] is returned after an [st.error]. *)
Lemma get_prediction_total data w :
  ∃ v shown,
    get_prediction repr net data w
    = (Returned v,
       {| sent := sent w ++ [Request API_URL data]; page := page w ++ shown |})
    ∧ ((∃ r, net (length (sent w)) (Request API_URL data) = Responded r
             ∧ status_code r = 200 ∧ body_json r = inr v ∧ shown = [])
       ∨ (v = Py.PNone
          ∧ (∃ text rest, shown = St.error text :: rest)
          ∧ Forall (λ el, St.is_markdown el = false) shown)).
Proof.
  destruct (net (length (sent w)) (Request API_URL data)) as [r|e] eqn:Hnet.
  - destruct (body_json r) as [msg|v] eqn:Hb.
    + eexists _, _. split.
      * apply (get_prediction_unexpected _ _ (Py.Exn Py.JSONDecodeError msg));
          [by apply (try_undecodable _ _ _ _ r)|done].
      * right. repeat split; eauto; by repeat constructor.
    + destruct (decide (status_code r = 200)) as [Hst|Hst].
      * exists v, []. split.
        -- rewrite (get_prediction_200 repr net _ _ r v Hnet Hst Hb).
           unfold send. by rewrite app_nil_r.
        -- left. by exists r.
      * assert (Hcase : (∃ d, v = Py.PDict d) ∨ (∀ d, v ≠ Py.PDict d)).
        { destruct v; try (right; congruence). left. by eexists. }
        destruct Hcase as [[d ->]|Hnd].
        -- eexists _, _. split;
             [by apply (get_prediction_non_200_dict _ _ r d)|].
           right. repeat split; eauto; by repeat constructor.
        -- eexists _, _. split.
           ++ eapply get_prediction_unexpected;
                [by apply (try_non_200_not_dict _ _ _ _ r v)|done].
           ++ right. repeat split; eauto; by repeat constructor.
  - destruct (Py.is_ConnectionError e) eqn:Hc.
    + eexists _, _. split.
      * apply (get_prediction_connection_error _ _ e); [by apply try_post_failed|done].
      * right. repeat split; eauto; by repeat constructor.
    + eexists _, _. split.
      * apply (get_prediction_unexpected _ _ e); [by apply try_post_failed|done].
      * right. repeat split; eauto; by repeat constructor.
Qed.

End FailurePaths.

(** ** Error handling *)

(** C3, as the specification states it, fails: a plain-text 500 page has
    no detail to extract, and what the user reads is the message of the
    decode error, not "Unknown API Error". *)
Lemma non_200_undecodable_body_counterexample :
  status_code internal_server_error ≠ 200
  ∧ get_prediction no_repr (always (Responded internal_server_error))
      (Py.PDict (input_data initial_input)) blank
    = (Returned Py.PNone,
       {| sent := [predict_request initial_input];
          page := [ St.error ("An unexpected error occurred: "
                              +:+ "Expecting value: line 1 column 1 (char 0)") ] |})
  ∧ ¬ reports_detail no_repr (always (Responded internal_server_error))
        (Py.PDict (input_data initial_input)) blank internal_server_error.
Proof.
  assert (Hget :
    get_prediction no_repr (always (Responded internal_server_error))
      (Py.PDict (input_data initial_input)) blank
    = (Returned Py.PNone,
       {| sent := [predict_request initial_input];
          page := [ St.error ("An unexpected error occurred: "
                              +:+ "Expecting value: line 1 column 1 (char 0)") ] |}))
    by reflexivity.
  split; [discriminate|]. split; [exact Hget|].
  intros (shown & Hshown & text & Hin & Hdetail).
  rewrite Hget in Hshown. injection Hshown as Hpage. simpl in Hpage. subst shown.
  apply list_elem_of_singleton in Hin. injection Hin as ->.
  vm_compute in Hdetail. discriminate.
Qed.

(** C3, amended. For every non-200 response, [get_prediction] reports an
    error, returns [None], and the block renders no card.  When the body
    decodes to a JSON object, the error reads
    "API Error (<status>): <detail>", where the detail is the object's
    [detail] item, or "Unknown API Error" without one. *)
Theorem non_200_detail_reported repr net data w r
    (Hnet : net (length (sent w)) (Request API_URL data) = Responded r)
    (Hstatus : status_code r ≠ 200) :
  (∀ d, body_json r = inr (Py.PDict d) →
     get_prediction repr net data w
     = (Returned Py.PNone,
        {| sent := sent w ++ [Request API_URL data];
           page := page w ++
             [ St.error ("API Error (" +:+ Py.str_int (status_code r) +:+ "): "
                         +:+ Py.str repr
                               (default (Py.PStr "Unknown API Error") (d !! "detail")));
               St.warning
                 "Ensure your Project 2 FastAPI server is running in a separate terminal."
             ] |})
     ∧ reports_detail repr net data w r)
  ∧ (∃ shown,
       get_prediction repr net data w
       = (Returned Py.PNone,
          {| sent := sent w ++ [Request API_URL data]; page := page w ++ shown |})
       ∧ (∃ text rest, shown = St.error text :: rest)
       ∧ Forall (λ el, St.is_markdown el = false) shown)
  ∧ (∀ a, data = Py.PDict (input_data a) →
       ∃ shown,
         predict_button repr net a w
         = (Returned tt,
            {| sent := sent w ++ [predict_request a];
               page := page w ++
                 St.spinner "Analyzing data via MLOps Pipeline..." :: shown |})
         ∧ Forall (λ el, St.is_markdown el = false) shown).
Proof.
  assert (Hnone : ∀ w0, sent w0 = sent w →
    ∃ shown,
      get_prediction repr net data w0
      = (Returned Py.PNone,
         {| sent := sent w0 ++ [Request API_URL data]; page := page w0 ++ shown |})
      ∧ (∃ text rest, shown = St.error text :: rest)
      ∧ Forall (λ el, St.is_markdown el = false) shown).
  { intros w0 Hw0.
    destruct (get_prediction_total repr net data w0)
      as (v & shown & Hget & [(r' & Hnet' & Hst' & _)|(-> & Herr & Hcard)]).
    - rewrite Hw0, Hnet in Hnet'. injection Hnet' as <-. contradiction.
    - by exists shown. }
  split; [|split].
  - intros d Hb.
    pose proof (get_prediction_non_200_dict repr net data w r d Hnet Hstatus Hb) as Hget.
    split; [exact Hget|].
    eexists. split; [exact Hget|].
    eexists. split; [apply list_elem_of_here|].
    unfold spec_detail_message. rewrite Hb.
    destruct (d !! "detail") as [detail|];
      do 3 apply contains_skip; apply contains_self.
  - by apply Hnone.
  - intros a ->.
    destruct (Hnone (write (St.spinner "Analyzing data via MLOps Pipeline...") w) eq_refl)
      as (shown & Hget & _ & Hcard).
    exists shown. split; [|exact Hcard].
    by apply predict_button_none.
Qed.

(** "Age must be positive" comes back with status 422 and is shown. *)
Lemma non_200_detail_reported_witness :
  get_prediction no_repr (always (Responded age_must_be_positive))
    (Py.PDict (input_data initial_input)) blank
  = (Returned Py.PNone,
     {| sent := sent blank ++ [predict_request initial_input];
        page := page blank ++
          [ St.error ("API Error (" +:+ Py.str_int 422 +:+ "): "
                      +:+ "Age must be positive");
            St.warning
              "Ensure your Project 2 FastAPI server is running in a separate terminal."
          ] |}).
Proof.
  refine (proj1 (proj1 (non_200_detail_reported no_repr
                          (always (Responded age_must_be_positive))
                          (Py.PDict (input_data initial_input)) blank
                          age_must_be_positive eq_refl _) _ eq_refl)).
  discriminate.
Defined.

(** C4. When the endpoint cannot be reached, [get_prediction] writes the
    error "Connection Error: Could not connect to the Prediction API."
    with a line under it that names API_URL, and returns [None]; the
    error differs from the error of every other path, and the block
    renders no card. *)
Theorem connection_error_reported repr net data w e
    (Hnet : net (length (sent w)) (Request API_URL data) = Failed e)
    (Hconn : Py.is_ConnectionError e = true) :
  let cannot_connect := "Connection Error: Could not connect to the Prediction API." in
  let endpoint_hint :=
    "Please ensure your Project 2 FastAPI server is running at " +:+ API_URL +:+ "." in
  get_prediction repr net data w
  = (Returned Py.PNone,
     {| sent := sent w ++ [Request API_URL data];
        page := page w ++ [ St.error cannot_connect; St.warning endpoint_hint ] |})
  ∧ Py.contains API_URL endpoint_hint = true
  ∧ (∀ s, cannot_connect ≠ "An unexpected error occurred: " +:+ s)
  ∧ (∀ s, cannot_connect ≠ "API Error (" +:+ s)
  ∧ (∀ a, data = Py.PDict (input_data a) →
       predict_button repr net a w
       = (Returned tt,
          {| sent := sent w ++ [predict_request a];
             page := page w ++
               [ St.spinner "Analyzing data via MLOps Pipeline...";
                 St.error cannot_connect; St.warning endpoint_hint ] |})).
Proof.
  intros cannot_connect endpoint_hint.
  split; [|split; [|split; [|split]]].
  - apply (get_prediction_connection_error _ _ _ _ e); [by apply try_post_failed|done].
  - apply contains_app.
  - intros s. discriminate.
  - intros s. discriminate.
  - intros a ->. apply predict_button_none.
    exact (get_prediction_connection_error repr net _
             (write (St.spinner "Analyzing data via MLOps Pipeline...") w) e
             (try_post_failed repr net _
                (write (St.spinner "Analyzing data via MLOps Pipeline...") w) e Hnet)
             Hconn).
Qed.

(** Nothing listens on port 8000. *)
Lemma connection_error_reported_witness :
  predict_button no_repr (always (Failed connection_refused)) initial_input blank
  = (Returned tt,
     {| sent := sent blank ++ [predict_request initial_input];
        page := page blank ++
          [ St.spinner "Analyzing data via MLOps Pipeline...";
            St.error "Connection Error: Could not connect to the Prediction API.";
            St.warning ("Please ensure your Project 2 FastAPI server is running at "
                        +:+ API_URL +:+ ".") ] |}).
Proof.
  exact (proj2 (proj2 (proj2 (proj2
           (connection_error_reported no_repr (always (Failed connection_refused))
              (Py.PDict (input_data initial_input)) blank connection_refused
              eq_refl eq_refl))))
         initial_input eq_refl).
Defined.

(** C5. When the call fails in any other way (the [try] suite raises an
    exception that is not a connection error: [requests.post] raised
    something else, or the body could not be decoded),
    [get_prediction] writes "An unexpected error occurred: " followed by
    the text of the exception, and returns [None]. *)
Theorem unexpected_failure_reported repr net data w e w1
    (Hfail : get_prediction_try repr net data w = (Raised e, w1))
    (Hother : Py.is_ConnectionError e = false) :
  get_prediction repr net data w
  = (Returned Py.PNone,
     {| sent := sent w ++ [Request API_URL data];
        page := page w ++
          [ St.error ("An unexpected error occurred: " +:+ Py.exn_str e) ] |})
  ∧ Py.contains (Py.exn_str e) ("An unexpected error occurred: " +:+ Py.exn_str e) = true.
Proof.
  split.
  - pose proof (try_raised_page _ _ _ _ _ _ Hfail) as ->.
    by apply get_prediction_unexpected.
  - apply contains_skip, contains_self.
Qed.

(** A 200 response whose body is not JSON. *)
Lemma unexpected_failure_reported_witness :
  get_prediction no_repr (always (Responded garbled_ok))
    (Py.PDict (input_data initial_input)) blank
  = (Returned Py.PNone,
     {| sent := sent blank ++ [predict_request initial_input];
        page := page blank ++
          [ St.error ("An unexpected error occurred: "
                      +:+ "Expecting value: line 1 column 1 (char 0)") ] |}).
Proof.
  exact (proj1 (unexpected_failure_reported no_repr (always (Responded garbled_ok))
                  (Py.PDict (input_data initial_input)) blank
                  (Py.Exn Py.JSONDecodeError "Expecting value: line 1 column 1 (char 0)")
                  (send (predict_request initial_input) blank)
                  eq_refl eq_refl)).
Defined.

(** C6. Whatever the payload and whatever the network does, a call of
    [get_prediction] returns: either it hands back the decoded body of a
    200 response, or it has written an error message and returns
    [None].  It never raises. *)
Theorem get_prediction_never_raises repr net data w :
  (∀ e w', get_prediction repr net data w ≠ (Raised e, w'))
  ∧ ∃ v shown,
      get_prediction repr net data w
      = (Returned v,
         {| sent := sent w ++ [Request API_URL data]; page := page w ++ shown |})
      ∧ ((∃ r, net (length (sent w)) (Request API_URL data) = Responded r
               ∧ status_code r = 200 ∧ body_json r = inr v ∧ shown = [])
         ∨ (v = Py.PNone ∧ ∃ text rest, shown = St.error text :: rest)).
Proof.
  destruct (get_prediction_total repr net data w) as (v & shown & Hget & Hcases).
  split.
  - intros e w'. rewrite Hget. discriminate.
  - exists v, shown. split; [exact Hget|].
    destruct Hcases as [Hok|(Hv & Herr & _)]; [by left|by right].
Qed.

(** C8. Each press of the button sends exactly one request, whatever
    comes back; two presses with the same field values send two
    requests with the same payload, the second one not answered from
    the first.  A run without a press sends nothing. *)
Theorem two_presses_two_identical_requests repr net a w :
  let w1 := snd (script repr net true a w) in
  let w2 := snd (script repr net true a w1) in
  sent w1 = sent w ++ [predict_request a]
  ∧ sent w2 = sent w ++ [predict_request a; predict_request a]
  ∧ sent (snd (get_prediction repr net (json (predict_request a)) w1))
    = sent w1 ++ [predict_request a]
  ∧ snd (script repr net false a w) = w.
Proof.
  intros w1 w2. subst w1 w2. simpl.
  rewrite !predict_button_sends_once.
  repeat split.
  - by rewrite <- app_assoc.
  - destruct (get_prediction_returns repr net (Py.PDict (input_data a))
                (snd (predict_button repr net a w))) as (v & w' & Hget & Hsent).
    rewrite Hget. simpl. by rewrite Hsent, predict_button_sends_once.
Qed.

(** * Further properties of the script *)

(** ** What one press can put on the page *)

Section Outcomes.

Variable repr : Py.obj → string.
Variable net : network.

Implicit Types (data : Py.obj) (a : ApplicantInput) (w : world) (r : response).

(** [get_prediction], path by path, with what it writes spelled out. *)
Lemma get_prediction_shapes data w :
  ∃ v shown,
    get_prediction repr net data w
    = (Returned v,
       {| sent := sent w ++ [Request API_URL data]; page := page w ++ shown |})
    ∧ ((∃ r, net (length (sent w)) (Request API_URL data) = Responded r
             ∧ status_code r = 200 ∧ body_json r = inr v ∧ shown = [])
       ∨ (v = Py.PNone
          ∧ ∃ text, shown = [St.error text]
                    ∨ ∃ hint, shown = [St.error text; St.warning hint])).
Proof.
  destruct (net (length (sent w)) (Request API_URL data)) as [r|e] eqn:Hnet.
  - destruct (body_json r) as [msg|v] eqn:Hb.
    + eexists _, _. split.
      * apply (get_prediction_unexpected _ _ _ _ (Py.Exn Py.JSONDecodeError msg));
          [by apply (try_undecodable _ _ _ _ r)|done].
      * right. split; [done|]. eexists. by left.
    + destruct (decide (status_code r = 200)) as [Hst|Hst].
      * exists v, []. split.
        -- rewrite (get_prediction_200 repr net _ _ r v Hnet Hst Hb).
           unfold send. by rewrite app_nil_r.
        -- left. by exists r.
      * assert (Hcase : (∃ d, v = Py.PDict d) ∨ (∀ d, v ≠ Py.PDict d)).
        { destruct v; try (right; congruence). left. by eexists. }
        destruct Hcase as [[d ->]|Hnd].
        -- eexists _, _. split;
             [by apply (get_prediction_non_200_dict _ _ _ _ r d)|].
           right. split; [done|]. eexists. right. by eexists.
        -- eexists _, _. split.
           ++ eapply get_prediction_unexpected;
                [by apply (try_non_200_not_dict _ _ _ _ r v)|done].
           ++ right. split; [done|]. eexists. by left.
  - destruct (Py.is_ConnectionError e) eqn:Hc.
    + eexists _, _. split.
      * apply (get_prediction_connection_error _ _ _ _ e);
          [by apply try_post_failed|done].
      * right. split; [done|]. eexists. right. by eexists.
    + eexists _, _. split.
      * apply (get_prediction_unexpected _ _ _ _ e); [by apply try_post_failed|done].
      * right. split; [done|]. eexists. by left.
Qed.

(** X1. Whatever the network answers, one press adds to the page the
    spinner followed by exactly one of: nothing; an error, alone or
    followed by a warning; a card followed by the success message.  So a
    card and an error never appear together, and the success message
    appears only under a card. *)
Theorem press_page_shapes a w :
  ∃ shown,
    page (snd (predict_button repr net a w))
    = page w ++ St.spinner "Analyzing data via MLOps Pipeline..." :: shown
    ∧ (shown = []
       ∨ (∃ text, shown = [St.error text])
       ∨ (∃ text hint, shown = [St.error text; St.warning hint])
       ∨ (∃ body,
            shown = [ St.markdown body true;
                      St.success "Prediction complete! Result received from FastAPI API." ])).
Proof.
  destruct (get_prediction_shapes (Py.PDict (input_data a))
              (write (St.spinner "Analyzing data via MLOps Pipeline...") w))
    as (v & shown & Hget & Hcases).
  destruct Hcases as [(r & Hnet & Hst & Hb & ->)|(-> & text & Hshown)].
  - destruct (Py.truthy v) eqn:Hv.
    + assert (Hcase : (∃ d, v = Py.PDict d) ∨ (∀ d, v ≠ Py.PDict d)).
      { destruct v; try (right; congruence). left. by eexists. }
      destruct Hcase as [[d ->]|Hnd].
      * rewrite (predict_button_200_dict repr net a w r d Hnet Hst Hb Hv).
        eexists. split; [reflexivity|]. do 3 right. by eexists.
      * rewrite (predict_button_not_dict repr net a w v _ Hget Hv Hnd).
        exists []. split; [simpl; by rewrite app_nil_r|by left].
    + rewrite (predict_button_falsy repr net a w v _ Hget Hv).
      exists []. split; [simpl; by rewrite app_nil_r|by left].
  - rewrite (predict_button_none repr net a w shown Hget).
    exists shown. split; [done|].
    destruct Hshown as [->|[hint ->]]; [right; left|right; right; left]; eauto.
Qed.

(** X2. A 200 response whose body decodes to a truthy value that is not
    an object (a list, a string, a number, [true]) passes
    [get_prediction] and makes the block raise [AttributeError] at its
    first [.get]: only the spinner has been written, neither a card nor
    an error. *)
Theorem press_raises_on_truthy_non_object a w r v
    (Hnet : net (length (sent w)) (predict_request a) = Responded r)
    (Hstatus : status_code r = 200)
    (Hbody : body_json r = inr v)
    (Htruthy : Py.truthy v = true)
    (Hnot_dict : ∀ d, v ≠ Py.PDict d) :
  predict_button repr net a w
  = (Raised (Py.Exn Py.AttributeError
               ("'" +:+ Py.type_name v +:+ "' object has no attribute 'get'")),
     {| sent := sent w ++ [predict_request a];
        page := page w ++ [ St.spinner "Analyzing data via MLOps Pipeline..." ] |}).
Proof.
  apply predict_button_not_dict; [|done..].
  exact (get_prediction_200 repr net _
           (write (St.spinner "Analyzing data via MLOps Pipeline...") w)
           r v Hnet Hstatus Hbody).
Qed.

(** X3. That is the only way for the block to raise: it raises exactly
    when the response has status 200 and a body that decodes to a truthy
    value other than an object. *)
Theorem press_raises_iff a w :
  (∃ e w', predict_button repr net a w = (Raised e, w'))
  ↔ (∃ r v, net (length (sent w)) (predict_request a) = Responded r
            ∧ status_code r = 200
            ∧ body_json r = inr v
            ∧ Py.truthy v = true
            ∧ ∀ d, v ≠ Py.PDict d).
Proof.
  split.
  - intros (e & w' & Hraise).
    destruct (get_prediction_shapes (Py.PDict (input_data a))
                (write (St.spinner "Analyzing data via MLOps Pipeline...") w))
      as (v & shown & Hget & Hcases).
    destruct Hcases as [(r & Hnet & Hst & Hb & ->)|(-> & _)].
    + destruct (Py.truthy v) eqn:Hv.
      * exists r, v. repeat split; try done.
        intros d ->.
        rewrite (predict_button_200_dict repr net a w r d Hnet Hst Hb Hv) in Hraise.
        discriminate.
      * rewrite (predict_button_falsy repr net a w v _ Hget Hv) in Hraise.
        discriminate.
    + rewrite (predict_button_falsy repr net a w _ _ Hget eq_refl) in Hraise.
      discriminate.
  - intros (r & v & Hnet & Hst & Hb & Hv & Hnd).
    eexists _, _. apply predict_button_not_dict; [|done..].
    exact (get_prediction_200 repr net _
             (write (St.spinner "Analyzing data via MLOps Pipeline...") w)
             r v Hnet Hst Hb).
Qed.

(** X4. A non-200 response whose body is JSON but not an object has no
    [.get] either: the failure is caught by the catch-all clause and
    reported as an unexpected error that names the type of the body. *)
Theorem non_200_non_object_reported data w r v
    (Hnet : net (length (sent w)) (Request API_URL data) = Responded r)
    (Hstatus : status_code r ≠ 200)
    (Hbody : body_json r = inr v)
    (Hnot_dict : ∀ d, v ≠ Py.PDict d) :
  get_prediction repr net data w
  = (Returned Py.PNone,
     {| sent := sent w ++ [Request API_URL data];
        page := page w ++
          [ St.error ("An unexpected error occurred: "
                      +:+ "'" +:+ Py.type_name v
                      +:+ "' object has no attribute 'get'") ] |}).
Proof.
  eapply (get_prediction_unexpected repr net data w
            (Py.Exn Py.AttributeError
               ("'" +:+ Py.type_name v +:+ "' object has no attribute 'get'")));
    [by apply (try_non_200_not_dict _ _ _ _ r v)|done].
Qed.

End Outcomes.

(** A 200 response with the list [[1]]. *)
Lemma press_raises_on_truthy_non_object_witness :
  predict_button no_repr
    (always (Responded (Response 200 (inr (Py.PList [Py.PInt 1])))))
    initial_input blank
  = (Raised (Py.Exn Py.AttributeError "'list' object has no attribute 'get'"),
     {| sent := [predict_request initial_input];
        page := [ St.spinner "Analyzing data via MLOps Pipeline..." ] |}).
Proof.
  refine (press_raises_on_truthy_non_object no_repr
            (always (Responded (Response 200 (inr (Py.PList [Py.PInt 1])))))
            initial_input blank (Response 200 (inr (Py.PList [Py.PInt 1])))
            (Py.PList [Py.PInt 1]) eq_refl eq_refl eq_refl eq_refl _).
  intros d. discriminate.
Defined.

(** A 404 whose body is the JSON string ["Not Found"]. *)
Lemma non_200_non_object_reported_witness :
  get_prediction no_repr
    (always (Responded (Response 404 (inr (Py.PStr "Not Found")))))
    (Py.PDict (input_data initial_input)) blank
  = (Returned Py.PNone,
     {| sent := [predict_request initial_input];
        page := [ St.error ("An unexpected error occurred: "
                            +:+ "'str' object has no attribute 'get'") ] |}).
Proof.
  refine (non_200_non_object_reported no_repr
            (always (Responded (Response 404 (inr (Py.PStr "Not Found")))))
            (Py.PDict (input_data initial_input)) blank
            (Response 404 (inr (Py.PStr "Not Found"))) (Py.PStr "Not Found")
            eq_refl _ eq_refl _).
  - discriminate.
  - intros d. discriminate.
Defined.

(** ** The form and its payload *)

(** X5. For a valid form the numbers in the payload lie within the
    bounds declared on the widgets: Age in 18..100, Duration in 6..72,
    Credit_amount at least 500, and Job one of the four job codes. *)
Theorem payload_within_bounds (a : ApplicantInput) (Hvalid : valid_input a = true) :
  ∃ years months amount job,
    input_data a !! "Age" = Some (Py.PInt years)
    ∧ input_data a !! "Duration" = Some (Py.PInt months)
    ∧ input_data a !! "Credit_amount" = Some (Py.PInt amount)
    ∧ input_data a !! "Job" = Some (Py.PInt job)
    ∧ 18 ≤ years ≤ 100
    ∧ 6 ≤ months ≤ 72
    ∧ 500 ≤ amount
    ∧ 0 ≤ job ≤ 3.
Proof.
  unfold valid_input in Hvalid. rewrite !andb_true_iff in Hvalid.
  destruct Hvalid as [[[[[[[[Hage Hcredit] Hduration] _] Hjob] _] _] _] _].
  exists (age a), (duration a), (credit_amount a), (job_index a).
  do 4 (split; [reflexivity|]).
  unfold accepts in Hage, Hcredit, Hduration.
  apply andb_true_iff in Hage as [Hage_lo%Z.leb_le Hage_hi%Z.leb_le].
  apply andb_true_iff in Hcredit as [Hcredit_lo%Z.leb_le _].
  apply andb_true_iff in Hduration as [Hdur_lo%Z.leb_le Hdur_hi%Z.leb_le].
  apply offers_elem_of in Hjob.
  cbn in Hage_lo, Hage_hi, Hcredit_lo, Hdur_lo, Hdur_hi, Hjob.
  assert (0 ≤ job_index a ≤ 3) by (set_unfold in Hjob; lia).
  lia.
Qed.

(** The untouched form: 35 years, 24 months, 6500 DM, job code 0. *)
Lemma payload_within_bounds_witness :
  ∃ years months amount job,
    input_data initial_input !! "Age" = Some (Py.PInt years)
    ∧ input_data initial_input !! "Duration" = Some (Py.PInt months)
    ∧ input_data initial_input !! "Credit_amount" = Some (Py.PInt amount)
    ∧ input_data initial_input !! "Job" = Some (Py.PInt job)
    ∧ 18 ≤ years ≤ 100
    ∧ 6 ≤ months ≤ 72
    ∧ 500 ≤ amount
    ∧ 0 ≤ job ≤ 3.
Proof. exact (payload_within_bounds initial_input eq_refl). Defined.

(** X6. The payload loses nothing of the form: two forms with the same
    payload hold the same nine values. *)
Theorem input_data_injective (a b : ApplicantInput) :
  input_data a = input_data b → a = b.
Proof.
  intros Heq.
  pose proof (f_equal (λ m : gmap string Py.obj, m !! "Age") Heq) as H1.
  pose proof (f_equal (λ m : gmap string Py.obj, m !! "Duration") Heq) as H2.
  pose proof (f_equal (λ m : gmap string Py.obj, m !! "Credit_amount") Heq) as H3.
  pose proof (f_equal (λ m : gmap string Py.obj, m !! "Job") Heq) as H4.
  pose proof (f_equal (λ m : gmap string Py.obj, m !! "Sex") Heq) as H5.
  pose proof (f_equal (λ m : gmap string Py.obj, m !! "Housing") Heq) as H6.
  pose proof (f_equal (λ m : gmap string Py.obj, m !! "Saving_accounts") Heq) as H7.
  pose proof (f_equal (λ m : gmap string Py.obj, m !! "Checking_account") Heq) as H8.
  pose proof (f_equal (λ m : gmap string Py.obj, m !! "Purpose") Heq) as H9.
  clear Heq. destruct a, b.
  change (Some (Py.PInt age0) = Some (Py.PInt age1)) in H1.
  change (Some (Py.PInt duration0) = Some (Py.PInt duration1)) in H2.
  change (Some (Py.PInt credit_amount0) = Some (Py.PInt credit_amount1)) in H3.
  change (Some (Py.PInt job_index0) = Some (Py.PInt job_index1)) in H4.
  change (Some (Py.PStr sex0) = Some (Py.PStr sex1)) in H5.
  change (Some (Py.PStr housing0) = Some (Py.PStr housing1)) in H6.
  change (Some (Py.PStr saving_accounts0) = Some (Py.PStr saving_accounts1)) in H7.
  change (Some (Py.PStr checking_account0) = Some (Py.PStr checking_account1)) in H8.
  change (Some (Py.PStr purpose0) = Some (Py.PStr purpose1)) in H9.
  congruence.
Qed.

(** Read back from its own payload, the untouched form is itself. *)
Lemma input_data_injective_witness : initial_input = initial_input.
Proof. exact (input_data_injective initial_input initial_input eq_refl). Defined.

(** X7. The job select box can display each of its options: the
    [format_func] lookup in JOB_OPTIONS succeeds exactly on the codes the
    box offers, and two different codes never show the same label. *)
Theorem job_options_labelled :
  (∀ x, x ∈ options job_select ↔ is_Some (job_format_func x))
  ∧ (∀ x y text,
       job_format_func x = Some text → job_format_func y = Some text → x = y).
Proof.
  assert (Hcases : ∀ x,
    (x = 0 ∧ job_format_func x = Some "Unskilled-Non-Resident")
    ∨ (x = 1 ∧ job_format_func x = Some "Unskilled-Resident")
    ∨ (x = 2 ∧ job_format_func x = Some "Skilled")
    ∨ (x = 3 ∧ job_format_func x = Some "Highly Skilled")
    ∨ ((x ∉ options job_select) ∧ job_format_func x = None)).
  { intros x. unfold job_format_func, JOB_OPTIONS. cbn [List.find fst].
    destruct (Z.eqb_spec 0 x); [left; by subst|].
    destruct (Z.eqb_spec 1 x); [right; left; by subst|].
    destruct (Z.eqb_spec 2 x); [right; right; left; by subst|].
    destruct (Z.eqb_spec 3 x); [right; right; right; left; by subst|].
    do 4 right. split; [|done].
    change (options job_select) with [0; 1; 2; 3].
    rewrite !elem_of_cons, elem_of_nil. lia. }
  split.
  - intros x.
    destruct (Hcases x) as [[Hx Hf]|[[Hx Hf]|[[Hx Hf]|[[Hx Hf]|[Hno Hf]]]]];
      rewrite Hf.
    1-4: split; [by eexists | intros _; subst x; cbn; set_solver].
    split; [done | by intros [? ?]].
  - intros x y text Hx Hy.
    destruct (Hcases x) as [[-> Hx']|[[-> Hx']|[[-> Hx']|[[-> Hx']|[_ Hx']]]]];
      destruct (Hcases y) as [[-> Hy']|[[-> Hy']|[[-> Hy']|[[-> Hy']|[_ Hy']]]]];
      congruence.
Qed.

(** ** The card *)

Lemma float_eq_int_unique (f : spec_float) (j k : Z) :
  Py.float_eq_int f j = true → Py.float_eq_int f k = true → j = k.
Proof.
  unfold Py.float_eq_int. destruct f as [ s | s | | s m e ]; try discriminate.
  - intros Hj%Z.eqb_eq Hk%Z.eqb_eq. lia.
  - destruct (Z.leb_spec 0 e) as [He|He].
    + intros Hj%Z.eqb_eq Hk%Z.eqb_eq. lia.
    + intros Hj%Z.eqb_eq Hk%Z.eqb_eq.
      assert (0 < 2 ^ (- e)) by (apply Z.pow_pos_nonneg; lia). nia.
Qed.

(** A value is [==] to one integer at most. *)
Lemma eq_int_unique (v : Py.obj) (j k : Z) :
  Py.eq_int v j = true → Py.eq_int v k = true → j = k.
Proof.
  destruct v as [ | b | n | f | s | l | d ]; unfold Py.eq_int; try discriminate.
  - intros Hj%Z.eqb_eq Hk%Z.eqb_eq. lia.
  - intros Hj%Z.eqb_eq Hk%Z.eqb_eq. lia.
  - apply float_eq_int_unique.
Qed.

Lemma eq_int_other (v : Py.obj) (j k : Z) :
  Py.eq_int v k = true → j ≠ k → Py.eq_int v j = false.
Proof.
  intros Hk Hne. destruct (Py.eq_int v j) eqn:Hj; [|done].
  destruct Hne. by apply (eq_int_unique v).
Qed.

(** X8. The branches of the [if]/[elif] chain exclude one another, so
    the card depends on the numeric value of the identifier only: a
    value that [==] 0, 1 or 2 (the boolean [true], the float 1.0) is
    rendered as that integer is. *)
Theorem card_by_numeric_value (v : Py.obj) (k : Z)
    (Hk : 0 ≤ k ≤ 2) (Heq : Py.eq_int v k = true) :
  segment_visual v = segment_visual (Py.PInt k).
Proof.
  assert (Hcases : k = 0 ∨ k = 1 ∨ k = 2) by lia.
  unfold segment_visual.
  destruct Hcases as [-> | [-> | ->]].
  - by rewrite Heq.
  - by rewrite (eq_int_other v 0 1 Heq), Heq.
  - by rewrite (eq_int_other v 0 2 Heq), (eq_int_other v 1 2 Heq), Heq.
Qed.

(** [true] and the float 1.0 (mantissa 2^52, exponent -52) are rendered
    as medium risk. *)
Lemma card_by_numeric_value_witness :
  segment_visual (Py.PBool true) = ("var(--medium-risk)", "Medium Risk Segment")
  ∧ segment_visual (Py.PFloat (S754_finite false 4503599627370496 (-52)))
    = ("var(--medium-risk)", "Medium Risk Segment").
Proof.
  split.
  - apply (card_by_numeric_value (Py.PBool true) 1); [lia|reflexivity].
  - apply (card_by_numeric_value
             (Py.PFloat (S754_finite false 4503599627370496 (-52))) 1);
      [lia|reflexivity].
Defined.

(** X9. The card is written with HTML enabled, and the colour, the label
    and the segment name sent by the service are spliced into it as they
    are: the name is not escaped. *)
Theorem card_text_verbatim repr net a w r d
    (Hnet : net (length (sent w)) (predict_request a) = Responded r)
    (Hstatus : status_code r = 200)
    (Hbody : body_json r = inr (Py.PDict d))
    (Hrendered : Py.truthy (Py.PDict d) = true) :
  let segment_id := default (Py.PInt 99) (d !! "risk_segment_id") in
  let segment_name := default (Py.PStr "Unknown Segment") (d !! "risk_segment_name") in
  ∃ body,
    page (snd (predict_button repr net a w))
    = page w ++
      [ St.spinner "Analyzing data via MLOps Pipeline...";
        St.markdown body true;
        St.success "Prediction complete! Result received from FastAPI API." ]
    ∧ Py.contains ("background-color: " +:+ fst (segment_visual segment_id) +:+ ";")
        body = true
    ∧ Py.contains (">" +:+ snd (segment_visual segment_id) +:+ "</div>") body = true
    ∧ Py.contains (">Predicted Segment: " +:+ Py.str repr segment_name +:+ "</div>")
        body = true.
Proof.
  intros segment_id segment_name.
  rewrite (predict_button_200_dict repr net a w r d Hnet Hstatus Hbody Hrendered).
  eexists. split; [reflexivity|]. apply risk_card_parts.
Qed.

(** A segment name that is itself markup reaches the page as markup. *)
Lemma card_text_verbatim_witness :
  ∃ body,
    page (snd (predict_button no_repr
                 (always (Responded (Response 200 (inr (Py.PDict
                    (list_to_map [ ("risk_segment_id", Py.PInt 2);
                                   ("risk_segment_name", Py.PStr "<b>Subprime</b>") ]))))))
                 initial_input blank))
    = page blank ++
      [ St.spinner "Analyzing data via MLOps Pipeline...";
        St.markdown body true;
        St.success "Prediction complete! Result received from FastAPI API." ]
    ∧ Py.contains ("background-color: " +:+ "var(--high-risk)" +:+ ";") body = true
    ∧ Py.contains (">" +:+ "High Risk Segment" +:+ "</div>") body = true
    ∧ Py.contains (">Predicted Segment: " +:+ "<b>Subprime</b>" +:+ "</div>") body = true.
Proof.
  exact (card_text_verbatim no_repr
           (always (Responded (Response 200 (inr (Py.PDict
              (list_to_map [ ("risk_segment_id", Py.PInt 2);
                             ("risk_segment_name", Py.PStr "<b>Subprime</b>") ]))))))
           initial_input blank
           (Response 200 (inr (Py.PDict
              (list_to_map [ ("risk_segment_id", Py.PInt 2);
                             ("risk_segment_name", Py.PStr "<b>Subprime</b>") ]))))
           (list_to_map [ ("risk_segment_id", Py.PInt 2);
                          ("risk_segment_name", Py.PStr "<b>Subprime</b>") ])
           eq_refl eq_refl eq_refl eq_refl).
Defined.

(** X10. Whatever the identifier, the colour of the card is a reference
    [var(--name)] to a custom property that the stylesheet of the page
    declares. *)
Theorem card_colour_declared (v : Py.obj) :
  ∃ name,
    fst (segment_visual v) = "var(" +:+ name +:+ ")"
    ∧ Py.contains ("        " +:+ name +:+ ": #") page_style = true.
Proof.
  unfold segment_visual.
  destruct (Py.eq_int v 0); [exists "--low-risk"; split; [done|by vm_compute]|].
  destruct (Py.eq_int v 1); [exists "--medium-risk"; split; [done|by vm_compute]|].
  destruct (Py.eq_int v 2); [exists "--high-risk"; split; [done|by vm_compute]|].
  exists "--border-color". split; [done|by vm_compute].
Qed.

(** ** Pressing again *)

(** X11. [n] presses in a row send [n] requests, all to API_URL and all
    with the payload of the form: nothing is skipped, repeated or
    answered from an earlier press, whatever the service answered. *)
Theorem presses_send_one_each repr net (n : nat) (a : ApplicantInput) (w : world) :
  sent (presses repr net n a w) = sent w ++ replicate n (predict_request a).
Proof.
  revert w. induction n as [|n IH]; intros w.
  - simpl. by rewrite app_nil_r.
  - cbn [presses script]. rewrite IH, predict_button_sends_once.
    by rewrite <- app_assoc.
Qed.

(** ** A silent [None] *)

(** X12. [get_prediction] returns [None] without writing anything only
    when the service itself answered 200 with the body [null]: every
    other [None] comes with an error on the page. *)
Theorem silent_none_iff_null_body repr net (data : Py.obj) (w : world) :
  (∃ w', get_prediction repr net data w = (Returned Py.PNone, w')
         ∧ page w' = page w)
  ↔ (∃ r, net (length (sent w)) (Request API_URL data) = Responded r
          ∧ status_code r = 200
          ∧ body_json r = inr Py.PNone).
Proof.
  split.
  - intros (w' & Hget & Hpage).
    destruct (get_prediction_shapes repr net data w) as (v & shown & Hget' & Hcases).
    rewrite Hget' in Hget. injection Hget as -> <-. simpl in Hpage.
    destruct Hcases as [(r & Hnet & Hst & Hb & _)|(_ & text & Hshown)].
    + by exists r.
    + apply (f_equal length) in Hpage. rewrite length_app in Hpage.
      destruct Hshown as [->|[hint ->]]; simpl in Hpage; lia.
  - intros (r & Hnet & Hst & Hb).
    eexists. split; [by apply (get_prediction_200 _ _ _ _ r)|done].
Qed.
